(** * StaticWebsite: a CDK construct for an S3/CloudFront backed website

    Shallow embedding of [lib/index.ts].  The construct is a constructor
    that creates seven child constructs inside its own scope and wires
    references between them.  The model keeps

    - JavaScript strings as lists of UTF-16 code units,
    - the one regular expression of the file as a small backtracking
      matcher in the continuation style of the ECMAScript specification,
    - the children of the construct as a finite map from construct id to
      the properties the source passes to each [new X(this, id, props)],
    - object references as construct ids, so that the bucket mutated by
      [grantRead] is the bucket every other descriptor points to. *)

From stdpp Require Import gmap strings list fin_maps.
From Stdlib Require Import NArith Ascii Lia.

Open Scope N_scope.
Open Scope list_scope.

(** ** JavaScript strings *)

Module JS.

(** A JavaScript string is a sequence of 16-bit code units. *)
Abbreviation jsstring := (list N).

(** A source literal made of ASCII characters. *)
Fixpoint lit (s : string) : jsstring :=
  match s with
  | EmptyString => []
  | String a s' => N_of_ascii a :: lit s'
  end.

(** ECMAScript LineTerminator: LF, CR, LS (U+2028), PS (U+2029). *)
Definition isLineTerminator (c : N) : bool :=
  (c =? 10) || (c =? 13) || (c =? 8232) || (c =? 8233).

(** The code unit of the full stop. *)
Definition DOT : N := 46.

(** Truthiness of a string value: only the empty string is falsy. *)
Definition truthy (s : jsstring) : bool :=
  match s with
  | [] => false
  | _ :: _ => true
  end.

(** *** Regular expressions

    The fragment of the pattern language used by the source: single
    characters, the wildcard, lazy and greedy stars over a single
    character, concatenation and numbered capture groups. *)

Inductive atom : Type :=
| Char (c : N)   (* a literal or escaped character, as in [\.] *)
| AnyChar.       (* [.] without the dotAll flag *)

Definition atom_test (a : atom) (c : N) : bool :=
  match a with
  | Char d => c =? d
  | AnyChar => negb (isLineTerminator c)
  end.

Inductive regex : Type :=
| Atom (a : atom)
| Star (greedy : bool) (a : atom)
| Seq (r1 r2 : regex)
| Group (n : nat) (r : regex).

(** The state of a match: the input that is still to be read, and the
    captures recorded so far (most recent first). *)
Record MatchState : Type := mkState {
  rest : jsstring;
  captures : list (nat * jsstring)
}.

Definition Continuation : Type := MatchState -> option MatchState.

(** [a*] and [a*?] from the current position.  The greedy star first
    tries one more character and falls back to the continuation; the
    lazy star first tries the continuation. *)
Fixpoint RepeatMatcher (greedy : bool) (a : atom)
    (k : jsstring -> option MatchState) (s : jsstring) : option MatchState :=
  let more :=
    match s with
    | c :: s' => if atom_test a c then RepeatMatcher greedy a k s' else None
    | [] => None
    end in
  if greedy then
    match more with
    | Some y => Some y
    | None => k s
    end
  else
    match k s with
    | Some y => Some y
    | None => more
    end.

Fixpoint matcher (r : regex) (k : Continuation) (x : MatchState)
    : option MatchState :=
  match r with
  | Atom a =>
      match rest x with
      | c :: s' => if atom_test a c then k (mkState s' (captures x)) else None
      | [] => None
      end
  | Star g a => RepeatMatcher g a (fun s => k (mkState s (captures x))) (rest x)
  | Seq r1 r2 => matcher r1 (matcher r2 k) x
  | Group n r =>
      matcher r
        (fun y =>
           let consumed := (length (rest x) - length (rest y))%nat in
           k (mkState (rest y) ((n, firstn consumed (rest x)) :: captures y)))
        x
  end.

(** Try the pattern at the current position. *)
Definition match_here (r : regex) (s : jsstring) : option MatchState :=
  matcher r Some (mkState s []).

(** RegExpBuiltinExec for a pattern without the global or sticky flag:
    the leftmost position at which the pattern matches.  The result is
    the input before the match and the state at the end of the match. *)
Fixpoint RegExpExec (r : regex) (s : jsstring)
    : option (jsstring * MatchState) :=
  match match_here r s with
  | Some y => Some ([], y)
  | None =>
      match s with
      | [] => None
      | c :: s' =>
          match RegExpExec r s' with
          | Some (pre, y) => Some (c :: pre, y)
          | None => None
          end
      end
  end.

(** A replacement template, already split into literal text and
    references [$n] to capture groups. *)
Inductive template_part : Type :=
| Text (s : jsstring)
| CaptureRef (n : nat).

Fixpoint capture (caps : list (nat * jsstring)) (n : nat) : jsstring :=
  match caps with
  | [] => []
  | (m, s) :: caps' => if Nat.eqb m n then s else capture caps' n
  end.

Fixpoint GetSubstitution (caps : list (nat * jsstring))
    (t : list template_part) : jsstring :=
  match t with
  | [] => []
  | Text s :: t' => s ++ GetSubstitution caps t'
  | CaptureRef n :: t' => capture caps n ++ GetSubstitution caps t'
  end.

(** [String.prototype.replace] with a non-global pattern: the first
    match is replaced, a string without a match is returned as it is. *)
Definition replace (s : jsstring) (r : regex) (t : list template_part)
    : jsstring :=
  match RegExpExec r s with
  | None => s
  | Some (pre, y) => pre ++ GetSubstitution (captures y) t ++ rest y
  end.

End JS.

Import JS.

(** The pattern of [lookupHostedZone]: a lazy star of the wildcard, an
    escaped full stop, and capture group 1 around a greedy star of the
    wildcard.  No flag is set. *)
Definition hostedZonePattern : regex :=
  Seq (Star false AnyChar)
      (Seq (Atom (Char DOT)) (Group 1 (Star true AnyChar))).

(** The replacement ["$1"] of [lookupHostedZone]. *)
Definition hostedZoneReplacement : list template_part := [CaptureRef 1].

(** [domainName.replace(pattern, "$1")] *)
Definition hostedZoneDomainName (domainName : jsstring) : jsstring :=
  replace domainName hostedZonePattern hostedZoneReplacement.

(** ** The resource model of the CDK, as far as the source uses it *)

(** A reference to a construct created in the scope of the website: its
    construct id. *)
Abbreviation Ref := string.

(** [cdk.Duration] *)
Inductive Duration : Type :=
| Duration_seconds (n : N)
| Duration_minutes (n : N)
| Duration_days (n : N).

Definition toSeconds (d : Duration) : N :=
  match d with
  | Duration_seconds n => n
  | Duration_minutes n => 60 * n
  | Duration_days n => 86400 * n
  end.

(** [cdk.RemovalPolicy] *)
Inductive RemovalPolicy : Type := DESTROY | RETAIN | SNAPSHOT.

(** [s3.BlockPublicAccess]: the four block-public-access settings. *)
Record BlockPublicAccess : Type := {
  blockPublicAcls : bool;
  blockPublicPolicy : bool;
  ignorePublicAcls : bool;
  restrictPublicBuckets : bool
}.

(** Modelled from the spec: the constant [BlockPublicAccess.BLOCK_ALL] is
    declared by the CDK and not by this repository.  The spec calls it
    public access fully blocked, and the repository's test expects all
    four settings of the bucket to be [true]. *)
Definition BLOCK_ALL : BlockPublicAccess :=
  {| blockPublicAcls := true;
     blockPublicPolicy := true;
     ignorePublicAcls := true;
     restrictPublicBuckets := true |}.

(** An attribute of a construct that the provisioning engine resolves,
    such as [bucket.bucketName] or [certificate.certificateArn]. *)
Inductive Token : Type :=
| Attr (construct : Ref) (attribute : string).

(** A template literal over text and attributes. *)
Inductive Fragment : Type :=
| FText (s : jsstring)
| FToken (t : Token).

(** [iam.IPrincipal], here only the principal of an access identity. *)
Inductive Principal : Type :=
| grantPrincipal (identity : Ref).

(** [s3deploy.Source] *)
Inductive ISource : Type :=
| Source_asset (path : jsstring)
| Source_bucket (bucket : Ref) (zipObjectKey : jsstring).

(** [s3deploy.CacheControl] *)
Inductive CacheControl : Type :=
| CacheControl_mustRevalidate
| CacheControl_noCache
| CacheControl_noTransform
| CacheControl_setPublic
| CacheControl_setPrivate
| CacheControl_maxAge (d : Duration).

(** [route53.RecordTarget] with the alias targets of
    [aws-route53-targets]. *)
Inductive IAliasRecordTarget : Type :=
| CloudFrontTarget (distribution : Ref)
| BucketWebsiteTarget (bucket : Ref).

Inductive RecordTarget : Type :=
| fromAlias (aliasTarget : IAliasRecordTarget)
| fromIpAddresses (ipAddresses : list jsstring).

(** The properties of each construct, with the keys of the object
    literals of the source. *)

Module BucketProps.
Record t : Type := {
  websiteIndexDocument : jsstring;
  bucketName : jsstring;
  removalPolicy : RemovalPolicy;
  blockPublicAccess : BlockPublicAccess
}.
End BucketProps.

Module BucketDeploymentProps.
Record t : Type := {
  sources : list ISource;
  destinationBucket : Ref;
  cacheControl : list CacheControl
}.
End BucketDeploymentProps.

Module OriginAccessIdentityProps.
Record t : Type := {
  comment : list Fragment
}.
End OriginAccessIdentityProps.

Module S3OriginConfig.
Record t : Type := {
  s3BucketSource : Ref;
  originAccessIdentity : Ref
}.
End S3OriginConfig.

Module Behavior.
Record t : Type := {
  isDefaultBehavior : bool;
  defaultTtl : Duration
}.
End Behavior.

Module SourceConfiguration.
Record t : Type := {
  s3OriginSource : S3OriginConfig.t;
  behaviors : list Behavior.t
}.
End SourceConfiguration.

Module AliasConfiguration.
Record t : Type := {
  acmCertRef : Token;
  names : list jsstring
}.
End AliasConfiguration.

Module ErrorConfiguration.
Record t : Type := {
  errorCode : N;
  errorCachingMinTtl : N;
  responseCode : N;
  responsePagePath : jsstring
}.
End ErrorConfiguration.

Module CloudFrontWebDistributionProps.
Record t : Type := {
  originConfigs : list SourceConfiguration.t;
  webACLId : option jsstring;
  aliasConfiguration : AliasConfiguration.t;
  defaultRootObject : jsstring;
  errorConfigurations : list ErrorConfiguration.t
}.
End CloudFrontWebDistributionProps.

Module DnsValidatedCertificateProps.
Record t : Type := {
  domainName : jsstring;
  hostedZone : Ref;
  region : jsstring
}.
End DnsValidatedCertificateProps.

Module HostedZoneProviderProps.
Record t : Type := {
  domainName : jsstring
}.
End HostedZoneProviderProps.

Module ARecordProps.
Record t : Type := {
  target : RecordTarget;
  recordName : jsstring;
  ttl : Duration;
  zone : Ref
}.
End ARecordProps.

(** A child construct: its class and the properties it was created
    with.  A bucket also carries the principals that were granted read
    access after its creation. *)
Inductive Resource : Type :=
| Bucket (props : BucketProps.t) (readGrants : list Principal)
| BucketDeployment (props : BucketDeploymentProps.t)
| OriginAccessIdentity (props : OriginAccessIdentityProps.t)
| CloudFrontWebDistribution (props : CloudFrontWebDistributionProps.t)
| DnsValidatedCertificate (props : DnsValidatedCertificateProps.t)
| HostedZone_fromLookup (query : HostedZoneProviderProps.t)
| ARecord (props : ARecordProps.t).





(** ** Construction inside a scope *)

Inductive error : Type :=
| DuplicateConstruct (id : string)
| NotABucket (r : Ref).

Inductive result (A : Type) : Type :=
| Ok (a : A)
| Throw (e : error).
Arguments Ok {A} a.
Arguments Throw {A} e.

(** A computation that adds children to the scope or throws. *)
Definition M (A : Type) : Type :=
  gmap string Resource -> result (A * gmap string Resource).

Definition ret {A : Type} (a : A) : M A := fun tree => Ok (a, tree).

Definition bind {A B : Type} (c : M A) (k : A -> M B) : M B :=
  fun tree =>
    match c tree with
    | Ok (a, tree') => k a tree'
    | Throw e => Throw e
    end.

Notation "'let!' x ':=' c 'in' k" := (bind c (fun x => k))
  (at level 10, x name, c at level 100, k at level 200).

(** [new X(this, id, props)]: the construct ids of one scope are unique. *)
Definition new_ (id : string) (r : Resource) : M Ref :=
  fun tree =>
    match tree !! id with
    | Some _ => Throw (DuplicateConstruct id)
    | None => Ok (id, <[id := r]> tree)
    end.

(** [bucket.grantRead(principal)] changes the bucket itself. *)
Definition grantRead (bucket : Ref) (p : Principal) : M unit :=
  fun tree =>
    match tree !! bucket with
    | Some (Bucket props grants) =>
        Ok (tt, <[bucket := Bucket props (grants ++ [p])]> tree)
    | _ => Throw (NotABucket bucket)
    end.

(** ** The construct *)

Module StaticWebsiteProps.
Record t : Type := {
  domainName : jsstring;
  websiteDistPath : option jsstring;
  indexDocument : option jsstring;
  bucketName : option jsstring;
  webACLId : option jsstring
}.
End StaticWebsiteProps.

(** The scope the website is created in, with the environment of its
    stack. *)
Module Scope.
Record t : Type := {
  account : option jsstring;
  region : option jsstring
}.
End Scope.

(** The public fields of the class. *)
Record StaticWebsite : Type := {
  bucket : Ref;
  bucketDeployment : option Ref;
  distribution : Ref;
  dnsRecord : Ref
}.

(** A default of a destructuring pattern applies to [undefined] only. *)
Definition withDefault {A : Type} (v : option A) (d : A) : A :=
  match v with
  | Some a => a
  | None => d
  end.

Definition createBucket (websiteIndexDocument bucketName : jsstring) : M Ref :=
  new_ "S3Bucket"
    (Bucket
       {| BucketProps.websiteIndexDocument := websiteIndexDocument;
          BucketProps.bucketName := bucketName;
          BucketProps.removalPolicy := DESTROY;
          BucketProps.blockPublicAccess := BLOCK_ALL |}
       []).

Definition createBucketDeployment (websiteDistPath : jsstring)
    (destinationBucket : Ref) : M Ref :=
  new_ "BucketDeployment"
    (BucketDeployment
       {| BucketDeploymentProps.sources := [Source_asset websiteDistPath];
          BucketDeploymentProps.destinationBucket := destinationBucket;
          BucketDeploymentProps.cacheControl := [CacheControl_noCache] |}).

(** The comment is a template literal over [destinationBucket.bucketName],
    an attribute of the bucket construct. *)
Definition createOriginAccessIdentity (destinationBucket : Ref) : M Ref :=
  let! originAccessIdentity :=
    new_ "Oai"
      (OriginAccessIdentity
         {| OriginAccessIdentityProps.comment :=
              [FText (lit "OAI for ");
               FToken (Attr destinationBucket "bucketName")] |}) in
  let! _ := grantRead destinationBucket (grantPrincipal originAccessIdentity) in
  ret originAccessIdentity.

Definition createCloudFrontWebDistribution (destinationBucket : Ref)
    (originAccessIdentity : Ref) (certificatArn : Token)
    (domainName websiteIndexDocument : jsstring)
    (webACLId : option jsstring) : M Ref :=
  new_ "CloudfrontDistribution"
    (CloudFrontWebDistribution
       {| CloudFrontWebDistributionProps.originConfigs :=
            [ {| SourceConfiguration.s3OriginSource :=
                   {| S3OriginConfig.s3BucketSource := destinationBucket;
                      S3OriginConfig.originAccessIdentity :=
                        originAccessIdentity |};
                 SourceConfiguration.behaviors :=
                   [ {| Behavior.isDefaultBehavior := true;
                        Behavior.defaultTtl := Duration_days 60 |} ] |} ];
          CloudFrontWebDistributionProps.webACLId := webACLId;
          CloudFrontWebDistributionProps.aliasConfiguration :=
            {| AliasConfiguration.acmCertRef := certificatArn;
               AliasConfiguration.names := [domainName] |};
          CloudFrontWebDistributionProps.defaultRootObject :=
            websiteIndexDocument;
          CloudFrontWebDistributionProps.errorConfigurations :=
            [ {| ErrorConfiguration.errorCode := 404;
                 ErrorConfiguration.errorCachingMinTtl := 300;
                 ErrorConfiguration.responseCode := 200;
                 ErrorConfiguration.responsePagePath :=
                   lit "/" ++ websiteIndexDocument |} ] |}).

Definition createCertificate (domainName : jsstring) (hostedZone : Ref)
    : M Ref :=
  new_ "SslCertificate"
    (DnsValidatedCertificate
       {| DnsValidatedCertificateProps.domainName := domainName;
          DnsValidatedCertificateProps.hostedZone := hostedZone;
          DnsValidatedCertificateProps.region := lit "us-east-1" |}).

(** [HostedZone.fromLookup] is resolved by the CDK and the provisioning
    engine; the construct only states which zone it asks for. *)
Definition lookupHostedZone (domainName : jsstring) : M Ref :=
  new_ "HostedZone"
    (HostedZone_fromLookup
       {| HostedZoneProviderProps.domainName :=
            hostedZoneDomainName domainName |}).

Definition createARecord (zone : Ref) (domainName : jsstring)
    (distribution : Ref) : M Ref :=
  new_ "DnsARecord"
    (ARecord
       {| ARecordProps.target := fromAlias (CloudFrontTarget distribution);
          ARecordProps.recordName := domainName;
          ARecordProps.ttl := Duration_minutes 1;
          ARecordProps.zone := zone |}).

(** The constructor.  [super(scope, id)] is the constructor of the CDK:
    it registers the website in its parent and gives it a scope of its
    own, in which the children below are created.  The parent is not
    part of the model, so the errors of [super] for an empty id or an
    id that the parent already uses are not modelled, and neither are
    the checks that the constructors of the CDK make on their
    properties.  The source reads neither [scope] nor [id] again. *)
Definition constructor (scope : Scope.t) (id : string)
    (props : StaticWebsiteProps.t) : M StaticWebsite :=
  let websiteDistPath := StaticWebsiteProps.websiteDistPath props in
  let domainName := StaticWebsiteProps.domainName props in
  let bucketName :=
    withDefault (StaticWebsiteProps.bucketName props)
      (lit "website." ++ domainName) in
  let indexDocument :=
    withDefault (StaticWebsiteProps.indexDocument props) (lit "index.html") in
  let webACLId := StaticWebsiteProps.webACLId props in
  let! this_bucket := createBucket indexDocument bucketName in
  let! this_bucketDeployment :=
    match websiteDistPath with
    | Some path =>
        if truthy path then
          let! deployment := createBucketDeployment path this_bucket in
          ret (Some deployment)
        else ret None
    | None => ret None
    end in
  let! hostedZone := lookupHostedZone domainName in
  let! certificate := createCertificate domainName hostedZone in
  let! originAccessIdentity := createOriginAccessIdentity this_bucket in
  let! this_distribution :=
    createCloudFrontWebDistribution this_bucket originAccessIdentity
      (Attr certificate "certificateArn") domainName indexDocument webACLId in
  let! this_dnsRecord :=
    createARecord hostedZone domainName this_distribution in
  ret {| bucket := this_bucket;
         bucketDeployment := this_bucketDeployment;
         distribution := this_distribution;
         dnsRecord := this_dnsRecord |}.

(** [new StaticWebsite(scope, id, props)]: the website and its children. *)
Definition new_StaticWebsite (scope : Scope.t) (id : string)
    (props : StaticWebsiteProps.t)
    : result (StaticWebsite * gmap string Resource) :=
  constructor scope id props ∅.

(** ** The hosted zone in the words of the spec

    These two functions follow the spec and not the source: the spec
    speaks of the leftmost label of a domain name and of the name that
    is left when that label is removed. *)

(** The leftmost label of a name: the text before its first full stop. *)
Fixpoint leftmostLabel (s : jsstring) : jsstring :=
  match s with
  | [] => []
  | c :: s' => if c =? DOT then [] else c :: leftmostLabel s'
  end.

(** The name without its leftmost label: the text after the first full
    stop. *)
Fixpoint afterFirstDot (s : jsstring) : jsstring :=
  match s with
  | [] => []
  | c :: s' => if c =? DOT then s' else afterFirstDot s'
  end.

(** The part of a text up to and including its last line terminator;
    the pattern cannot start a match before the end of that part. *)
Fixpoint throughLastLineTerminator (s : jsstring) : jsstring :=
  match s with
  | [] => []
  | c :: s' =>
      if existsb isLineTerminator s then c :: throughLastLineTerminator s'
      else []
  end.

(** The number of full stops of a name, one less than the number of
    its labels. *)
Fixpoint countDots (s : jsstring) : nat :=
  match s with
  | [] => 0%nat
  | c :: s' =>
      if c =? DOT then S (countDots s') else countDots s'
  end.

(** What follows the lazy star of the pattern: the full stop and the
    group. *)
Definition afterLabel : Continuation :=
  matcher (Seq (Atom (Char DOT)) (Group 1 (Star true AnyChar))) Some.

(** ** Sample configurations *)

(** The stack of the repository's tests and their one configuration. *)
Definition testStack : Scope.t :=
  {| Scope.account := Some (lit "123123123");
     Scope.region := Some (lit "eu-west-1") |}.

Definition testProps : StaticWebsiteProps.t :=
  {| StaticWebsiteProps.domainName := lit "foo.bar.dk";
     StaticWebsiteProps.websiteDistPath := None;
     StaticWebsiteProps.indexDocument := None;
     StaticWebsiteProps.bucketName := None;
     StaticWebsiteProps.webACLId := None |}.

(** The name ["a\nb.c"]: a line terminator before the first full stop. *)
Definition twoLineName : jsstring := [97; 10; 98; 46; 99].

(** The test configuration for that name. *)
Definition twoLineProps : StaticWebsiteProps.t :=
  {| StaticWebsiteProps.domainName := twoLineName;
     StaticWebsiteProps.websiteDistPath := None;
     StaticWebsiteProps.indexDocument := None;
     StaticWebsiteProps.bucketName := None;
     StaticWebsiteProps.webACLId := None |}.

(** A domain name of a single label. *)
Definition localhostProps : StaticWebsiteProps.t :=
  {| StaticWebsiteProps.domainName := lit "localhost";
     StaticWebsiteProps.websiteDistPath := None;
     StaticWebsiteProps.indexDocument := None;
     StaticWebsiteProps.bucketName := None;
     StaticWebsiteProps.webACLId := None |}.

(** A configuration that names its bucket. *)
Definition namedBucketProps : StaticWebsiteProps.t :=
  {| StaticWebsiteProps.domainName := lit "foo.bar.dk";
     StaticWebsiteProps.websiteDistPath := None;
     StaticWebsiteProps.indexDocument := None;
     StaticWebsiteProps.bucketName := Some (lit "my-bucket");
     StaticWebsiteProps.webACLId := None |}.

(** A configuration that names its index document. *)
Definition customIndexProps : StaticWebsiteProps.t :=
  {| StaticWebsiteProps.domainName := lit "foo.bar.dk";
     StaticWebsiteProps.websiteDistPath := None;
     StaticWebsiteProps.indexDocument := Some (lit "app.html");
     StaticWebsiteProps.bucketName := None;
     StaticWebsiteProps.webACLId := None |}.


(** An asset path that is supplied and empty. *)
Definition emptyPathProps : StaticWebsiteProps.t :=
  {| StaticWebsiteProps.domainName := lit "foo.bar.dk";
     StaticWebsiteProps.websiteDistPath := Some [];
     StaticWebsiteProps.indexDocument := None;
     StaticWebsiteProps.bucketName := None;
     StaticWebsiteProps.webACLId := None |}.

(** An asset path that names a directory. *)
Definition distProps : StaticWebsiteProps.t :=
  {| StaticWebsiteProps.domainName := lit "foo.bar.dk";
     StaticWebsiteProps.websiteDistPath := Some (lit "./dist");
     StaticWebsiteProps.indexDocument := None;
     StaticWebsiteProps.bucketName := None;
     StaticWebsiteProps.webACLId := None |}.

(** The configuration without an asset path. *)
Definition omitWebsiteDistPath (props : StaticWebsiteProps.t)
    : StaticWebsiteProps.t :=
  {| StaticWebsiteProps.domainName := StaticWebsiteProps.domainName props;
     StaticWebsiteProps.websiteDistPath := None;
     StaticWebsiteProps.indexDocument := StaticWebsiteProps.indexDocument props;
     StaticWebsiteProps.bucketName := StaticWebsiteProps.bucketName props;
     StaticWebsiteProps.webACLId := StaticWebsiteProps.webACLId props |}.

(** ** Proof automation *)

(** Runs the constructor on a configuration whose optional asset path
    has been split into its three cases. *)
Ltac run_constructor :=
  unfold new_StaticWebsite, constructor;
  cbn [StaticWebsiteProps.websiteDistPath StaticWebsiteProps.domainName
       StaticWebsiteProps.bucketName StaticWebsiteProps.indexDocument
       StaticWebsiteProps.webACLId truthy];
  reflexivity.

(** Splits a configuration into its fields and its asset path into
    omitted, empty and non-empty. *)
Ltac split_props props :=
  destruct props as [domainName [[|c path]|] indexDocument bucketName webACLId].

(** Looks through the children of a scope given as a chain of inserts. *)
Ltac each_child H tac :=
  repeat (apply lookup_insert_Some in H as [[<- H]|[_ H]]; [tac|]);
  try (by rewrite lookup_empty in H).

(** * Properties of the pattern matcher *)

Section Matcher.

Lemma split_at_first_dot (s : jsstring) :
  DOT ∈ s -> s = leftmostLabel s ++ DOT :: afterFirstDot s.
Proof.
  induction s as [|c s IH]; intros Hin.
  - by apply elem_of_nil in Hin.
  - simpl. destruct (N.eqb_spec c DOT) as [->|Hc]; [done|].
    apply elem_of_cons in Hin as [Heq|Hin]; [congruence|].
    simpl. by rewrite <- IH.
Qed.

Lemma leftmostLabel_no_dot (s : jsstring) : DOT ∉ leftmostLabel s.
Proof.
  induction s as [|c s IH]; simpl.
  - apply not_elem_of_nil.
  - destruct (N.eqb_spec c DOT) as [->|Hc]; [apply not_elem_of_nil|].
    apply not_elem_of_cons. split; [congruence|done].
Qed.

(** A greedy star in front of a continuation that accepts every
    position consumes a prefix and hands the remainder over. *)
Lemma RepeatMatcher_greedy (a : atom) (k : jsstring -> option MatchState)
    (s : jsstring) :
  (forall s', is_Some (k s')) ->
  exists s1 s2, s = s1 ++ s2 /\ RepeatMatcher true a k s = k s2.
Proof.
  intros Hk. induction s as [|c s IH].
  - exists [], []. split; [done|]. simpl. done.
  - simpl. destruct (atom_test a c).
    + destruct IH as (s1 & s2 & -> & IH). rewrite IH.
      destruct (Hk s2) as [y Hy]. rewrite Hy.
      exists (c :: s1), s2. done.
    + exists [], (c :: s). done.
Qed.

Lemma afterLabel_other (c : N) (s : jsstring) caps :
  c <> DOT -> afterLabel (mkState (c :: s) caps) = None.
Proof.
  intros Hc. unfold afterLabel. simpl.
  by destruct (N.eqb_spec c DOT).
Qed.

Lemma afterLabel_dot (b : jsstring) caps :
  exists s1 s2,
    b = s1 ++ s2 /\
    afterLabel (mkState (DOT :: b) caps) = Some (mkState s2 ((1%nat, s1) :: caps)).
Proof.
  unfold afterLabel. cbn -[RepeatMatcher firstn length].
  destruct (RepeatMatcher_greedy AnyChar
              (fun s => Some (mkState s ((1%nat, firstn (length b - length s) b) :: caps)))
              b) as (s1 & s2 & Hb & Hrun); [by eexists|].
  exists s1, s2. split; [done|].
  rewrite Hrun. do 3 f_equal.
  rewrite Hb, length_app.
  replace (length s1 + length s2 - length s2)%nat with (length s1) by lia.
  by rewrite take_app_length.
Qed.

(** The lazy star walks over the label as long as no line terminator
    stops it. *)
Lemma lazy_star_finds_dot (l b : jsstring) caps :
  DOT ∉ l ->
  Forall (fun c => isLineTerminator c = false) l ->
  RepeatMatcher false AnyChar (fun s => afterLabel (mkState s caps)) (l ++ DOT :: b)
  = afterLabel (mkState (DOT :: b) caps).
Proof.
  induction l as [|c l IH]; intros Hdot Hlt.
  - destruct (afterLabel_dot b caps) as (s1 & s2 & _ & Hk).
    simpl app. destruct b; simpl; rewrite Hk; done.
  - apply not_elem_of_cons in Hdot as [Hc Hdot].
    apply Forall_cons in Hlt as [Hlc Hlt].
    change ((c :: l) ++ DOT :: b) with (c :: (l ++ DOT :: b)).
    cbn [RepeatMatcher]. rewrite afterLabel_other by done.
    cbn [atom_test]. rewrite Hlc. cbn [negb]. by apply IH.
Qed.

(** A line terminator in the label stops the lazy star. *)
Lemma lazy_star_stopped (l b : jsstring) caps :
  DOT ∉ l ->
  Exists (fun c => isLineTerminator c = true) l ->
  RepeatMatcher false AnyChar (fun s => afterLabel (mkState s caps)) (l ++ b)
  = None.
Proof.
  induction l as [|c l IH]; intros Hdot Hlt.
  - by apply Exists_nil in Hlt.
  - apply not_elem_of_cons in Hdot as [Hc Hdot].
    change ((c :: l) ++ b) with (c :: (l ++ b)).
    cbn [RepeatMatcher]. rewrite afterLabel_other by done.
    cbn [atom_test].
    destruct (isLineTerminator c) eqn:Hlc; cbn [negb]; [done|].
    apply IH; [done|].
    apply Exists_cons in Hlt as [Hlt|Hlt]; [congruence|done].
Qed.

(** Without a full stop the lazy star finds nothing. *)
Lemma lazy_star_no_dot (s : jsstring) caps :
  DOT ∉ s ->
  RepeatMatcher false AnyChar (fun s => afterLabel (mkState s caps)) s = None.
Proof.
  induction s as [|c s IH]; intros Hdot.
  - reflexivity.
  - apply not_elem_of_cons in Hdot as [Hc Hdot].
    cbn [RepeatMatcher]. rewrite afterLabel_other by done.
    rewrite IH by done. by destruct (atom_test AnyChar c).
Qed.

Lemma match_here_unfold (s : jsstring) :
  match_here hostedZonePattern s
  = RepeatMatcher false AnyChar (fun s' => afterLabel (mkState s' [])) s.
Proof. reflexivity. Qed.

Lemma RegExpExec_no_dot (s : jsstring) :
  DOT ∉ s -> RegExpExec hostedZonePattern s = None.
Proof.
  induction s as [|c s IH]; intros Hdot.
  - reflexivity.
  - cbn [RegExpExec]. rewrite match_here_unfold, lazy_star_no_dot by done.
    apply not_elem_of_cons in Hdot as [_ Hdot]. by rewrite IH.
Qed.

Lemma existsb_line_terminator (l : jsstring) :
  existsb isLineTerminator l = true <->
  Exists (fun c => isLineTerminator c = true) l.
Proof.
  induction l as [|c l IH]; simpl.
  - split; [done|]. intros H. by apply Exists_nil in H.
  - rewrite Exists_cons, orb_true_iff, IH. done.
Qed.

Lemma no_line_terminator (l : jsstring) :
  existsb isLineTerminator l = false <->
  Forall (fun c => isLineTerminator c = false) l.
Proof.
  induction l as [|c l IH]; simpl.
  - split; [constructor|done].
  - rewrite Forall_cons, orb_false_iff, IH. done.
Qed.

Lemma throughLastLineTerminator_none (l : jsstring) :
  Forall (fun c => isLineTerminator c = false) l ->
  throughLastLineTerminator l = [].
Proof.
  intros H. apply no_line_terminator in H.
  destruct l as [|c l]; [done|].
  cbn [throughLastLineTerminator]. by rewrite H.
Qed.

(** The leftmost match begins after the last line terminator of the
    leftmost label and ends where the line of the first full stop ends. *)
Lemma RegExpExec_dot (l b : jsstring) :
  DOT ∉ l ->
  exists s1 s2,
    b = s1 ++ s2 /\
    RegExpExec hostedZonePattern (l ++ DOT :: b)
    = Some (throughLastLineTerminator l, mkState s2 [(1%nat, s1)]).
Proof.
  induction l as [|c l IH]; intros Hdot.
  - destruct (afterLabel_dot b []) as (s1 & s2 & Hb & Hk).
    exists s1, s2. split; [done|].
    cbn [app RegExpExec]. rewrite match_here_unfold.
    pose proof (lazy_star_finds_dot [] b []) as Hlazy. cbn [app] in Hlazy.
    rewrite Hlazy; [|apply not_elem_of_nil|constructor].
    by rewrite Hk.
  - pose proof Hdot as Hdot'.
    apply not_elem_of_cons in Hdot' as [Hc Hl].
    change ((c :: l) ++ DOT :: b) with (c :: (l ++ DOT :: b)).
    cbn [RegExpExec throughLastLineTerminator].
    rewrite match_here_unfold.
    change (c :: (l ++ DOT :: b)) with ((c :: l) ++ DOT :: b).
    destruct (existsb isLineTerminator (c :: l)) eqn:Hlt.
    + apply existsb_line_terminator in Hlt.
      rewrite lazy_star_stopped by done.
      destruct (IH Hl) as (s1 & s2 & Hb & Hrun).
      exists s1, s2. split; [done|]. by rewrite Hrun.
    + apply no_line_terminator in Hlt.
      rewrite lazy_star_finds_dot by done.
      destruct (afterLabel_dot b []) as (s1 & s2 & Hb & Hk).
      exists s1, s2. split; [done|]. by rewrite Hk.
Qed.

(** The zone name in general: the match is cut out of the name, and the
    text of the group is put in its place. *)
Lemma hostedZoneDomainName_dot (s : jsstring) :
  DOT ∈ s ->
  hostedZoneDomainName s
  = throughLastLineTerminator (leftmostLabel s) ++ afterFirstDot s.
Proof.
  intros Hin. rewrite (split_at_first_dot s Hin) at 1.
  unfold hostedZoneDomainName, replace.
  destruct (RegExpExec_dot (leftmostLabel s) (afterFirstDot s))
    as (s1 & s2 & Hb & Hrun); [apply leftmostLabel_no_dot|].
  rewrite Hrun. cbn. rewrite app_nil_r. by rewrite Hb.
Qed.

Lemma hostedZoneDomainName_one_line (s : jsstring) :
  DOT ∈ s ->
  Forall (fun c => isLineTerminator c = false) (leftmostLabel s) ->
  hostedZoneDomainName s = afterFirstDot s.
Proof.
  intros Hin Hlt.
  rewrite hostedZoneDomainName_dot by done.
  by rewrite throughLastLineTerminator_none.
Qed.

Lemma leftmostLabel_Forall (P : N -> Prop) (s : jsstring) :
  Forall P s -> Forall P (leftmostLabel s).
Proof.
  induction 1 as [|c s Hc Hs IH]; simpl; [constructor|].
  destruct (c =? DOT); [constructor|]. by constructor.
Qed.

Lemma hostedZoneDomainName_no_dot (s : jsstring) :
  DOT ∉ s -> hostedZoneDomainName s = s.
Proof.
  intros Hdot. unfold hostedZoneDomainName, replace.
  by rewrite RegExpExec_no_dot.
Qed.

End Matcher.

Example hostedZone_foo_bar_dk :
  hostedZoneDomainName (lit "foo.bar.dk") = lit "bar.dk".
Proof. reflexivity. Qed.

Example hostedZone_co_uk :
  hostedZoneDomainName (lit "foo.co.uk") = lit "co.uk".
Proof. reflexivity. Qed.

Example hostedZone_two_lines :
  hostedZoneDomainName twoLineName = [97; 10; 99].
Proof. reflexivity. Qed.

Example hostedZone_localhost :
  hostedZoneDomainName (lit "localhost") = lit "localhost".
Proof. reflexivity. Qed.

(** * Properties of the construct *)

Section Construction.

Lemma new_fresh (id : string) (r : Resource) (tree : gmap string Resource) :
  tree !! id = None -> new_ id r tree = Ok (id, <[id := r]> tree).
Proof. intros H. unfold new_. by rewrite H. Qed.

Lemma new_duplicate (id : string) (r : Resource) (tree : gmap string Resource) :
  is_Some (tree !! id) -> new_ id r tree = Throw (DuplicateConstruct id).
Proof. intros [r' H]. unfold new_. by rewrite H. Qed.

Lemma grantRead_bucket (b : Ref) (p : Principal) (props : BucketProps.t)
    (grants : list Principal) (tree : gmap string Resource) :
  tree !! b = Some (Bucket props grants) ->
  grantRead b p tree = Ok (tt, <[b := Bucket props (grants ++ [p])]> tree).
Proof. intros H. unfold grantRead. by rewrite H. Qed.

End Construction.

(** The seven construct ids of the source are distinct, so that no
    child is refused by the scope of the website for its id. *)
Lemma new_StaticWebsite_Ok scope id props :
  exists sw tree, new_StaticWebsite scope id props = Ok (sw, tree).
Proof. split_props props; do 2 eexists; run_constructor. Qed.

(** The lookup that the DNS record of the website lives in asks for
    the zone name computed from the domain name. *)
Lemma lookup_query scope id props :
  exists sw tree rp q,
    new_StaticWebsite scope id props = Ok (sw, tree) /\
    tree !! dnsRecord sw = Some (ARecord rp) /\
    tree !! ARecordProps.zone rp = Some (HostedZone_fromLookup q) /\
    HostedZoneProviderProps.domainName q
    = hostedZoneDomainName (StaticWebsiteProps.domainName props).
Proof.
  split_props props; do 4 eexists.
  all: split; [run_constructor|].
  all: cbn [dnsRecord]; simplify_map_eq; done.
Qed.

(** The expectations of the repository's tests and the example of the
    spec: the bucket ["website.foo.bar.dk"] with its index document and
    blocked public access, the A record ["foo.bar.dk"], a distribution
    with the default root object ["index.html"] and an access identity. *)
Example test_configuration :
  exists sw tree bp grants rp dp oai,
    new_StaticWebsite testStack "test" testProps = Ok (sw, tree) /\
    tree !! bucket sw = Some (Bucket bp grants) /\
    BucketProps.bucketName bp = lit "website.foo.bar.dk" /\
    BucketProps.websiteIndexDocument bp = lit "index.html" /\
    BucketProps.blockPublicAccess bp = BLOCK_ALL /\
    grants = [grantPrincipal "Oai"] /\
    tree !! dnsRecord sw = Some (ARecord rp) /\
    ARecordProps.recordName rp = lit "foo.bar.dk" /\
    tree !! distribution sw = Some (CloudFrontWebDistribution dp) /\
    CloudFrontWebDistributionProps.defaultRootObject dp = lit "index.html" /\
    tree !! "Oai" = Some (OriginAccessIdentity oai) /\
    dom tree = {[ "S3Bucket"; "HostedZone"; "SslCertificate"; "Oai";
                  "CloudfrontDistribution"; "DnsARecord" ]}.
Proof.
  do 7 eexists. split; [run_constructor|].
  cbn [bucket dnsRecord distribution]. simplify_map_eq.
  repeat (split; [reflexivity|]).
  rewrite !dom_insert_L, dom_empty_L. set_solver.
Qed.

(** ** The hosted zone *)

(** C1.  For every domain name that contains a full stop, the
    hosted-zone lookup asks for the name without its leftmost label:
    the text after the first full stop.  A domain name is a name
    without line terminators, as the fully qualified domain name that
    the source documents for [domainName]. *)
Theorem hosted_zone_strips_leftmost_label scope id props :
  DOT ∈ StaticWebsiteProps.domainName props ->
  Forall (fun c => isLineTerminator c = false)
         (StaticWebsiteProps.domainName props) ->
  exists sw tree rp q,
    new_StaticWebsite scope id props = Ok (sw, tree) /\
    tree !! dnsRecord sw = Some (ARecord rp) /\
    tree !! ARecordProps.zone rp = Some (HostedZone_fromLookup q) /\
    HostedZoneProviderProps.domainName q
    = afterFirstDot (StaticWebsiteProps.domainName props).
Proof.
  intros Hdot Hline.
  destruct (lookup_query scope id props) as (sw & tree & rp & q & H1 & H2 & H3 & H4).
  exists sw, tree, rp, q. repeat split; try done.
  rewrite H4. apply hostedZoneDomainName_one_line; [done|].
  by apply leftmostLabel_Forall.
Qed.

Lemma hosted_zone_strips_leftmost_label_witness :
  (DOT ∈ StaticWebsiteProps.domainName testProps) /\
  exists sw tree rp q,
    new_StaticWebsite testStack "test" testProps = Ok (sw, tree) /\
    tree !! dnsRecord sw = Some (ARecord rp) /\
    tree !! ARecordProps.zone rp = Some (HostedZone_fromLookup q) /\
    HostedZoneProviderProps.domainName q = lit "bar.dk".
Proof.
  assert (DOT ∈ StaticWebsiteProps.domainName testProps) as Hdot.
  { simpl. do 3 apply list_elem_of_further. apply list_elem_of_here. }
  split; [exact Hdot|].
  apply (hosted_zone_strips_leftmost_label testStack "test" testProps Hdot).
  simpl. repeat constructor.
Defined.

(** C9.  For every domain name without a full stop the hosted-zone
    lookup asks for the domain name itself. *)
Theorem hosted_zone_without_dot scope id props :
  DOT ∉ StaticWebsiteProps.domainName props ->
  exists sw tree rp q,
    new_StaticWebsite scope id props = Ok (sw, tree) /\
    tree !! dnsRecord sw = Some (ARecord rp) /\
    tree !! ARecordProps.zone rp = Some (HostedZone_fromLookup q) /\
    HostedZoneProviderProps.domainName q = StaticWebsiteProps.domainName props.
Proof.
  intros Hdot.
  destruct (lookup_query scope id props) as (sw & tree & rp & q & H1 & H2 & H3 & H4).
  exists sw, tree, rp, q. repeat split; try done.
  rewrite H4. by apply hostedZoneDomainName_no_dot.
Qed.

Lemma hosted_zone_without_dot_witness :
  (DOT ∉ StaticWebsiteProps.domainName localhostProps) /\
  exists sw tree rp q,
    new_StaticWebsite testStack "test" localhostProps = Ok (sw, tree) /\
    tree !! dnsRecord sw = Some (ARecord rp) /\
    tree !! ARecordProps.zone rp = Some (HostedZone_fromLookup q) /\
    HostedZoneProviderProps.domainName q = lit "localhost".
Proof.
  assert (DOT ∉ StaticWebsiteProps.domainName localhostProps) as Hdot.
  { simpl. repeat (apply not_elem_of_cons; split; [discriminate|]).
    apply not_elem_of_nil. }
  split; [exact Hdot|].
  exact (hosted_zone_without_dot testStack "test" localhostProps Hdot).
Defined.

(** ** The bucket *)

(** C2.  When the bucket name is omitted, the bucket is named
    ["website."] followed by the domain name; when a bucket name is
    supplied, the bucket has that name. *)
Theorem bucket_name_default_or_supplied scope id props :
  (StaticWebsiteProps.bucketName props = None ->
   exists sw tree bp grants,
     new_StaticWebsite scope id props = Ok (sw, tree) /\
     tree !! bucket sw = Some (Bucket bp grants) /\
     BucketProps.bucketName bp
     = lit "website." ++ StaticWebsiteProps.domainName props) /\
  (forall name,
   StaticWebsiteProps.bucketName props = Some name ->
   exists sw tree bp grants,
     new_StaticWebsite scope id props = Ok (sw, tree) /\
     tree !! bucket sw = Some (Bucket bp grants) /\
     BucketProps.bucketName bp = name).
Proof.
  split; [intros Hname | intros name Hname].
  all: split_props props; cbn in Hname; subst bucketName.
  all: do 4 eexists; (split; [run_constructor|]).
  all: cbn [bucket]; simplify_map_eq; done.
Qed.

Lemma bucket_name_default_or_supplied_witness :
  (exists sw tree bp grants,
     new_StaticWebsite testStack "test" testProps = Ok (sw, tree) /\
     tree !! bucket sw = Some (Bucket bp grants) /\
     BucketProps.bucketName bp = lit "website.foo.bar.dk") /\
  (exists sw tree bp grants,
     new_StaticWebsite testStack "test" namedBucketProps = Ok (sw, tree) /\
     tree !! bucket sw = Some (Bucket bp grants) /\
     BucketProps.bucketName bp = lit "my-bucket").
Proof.
  split.
  - apply (proj1 (bucket_name_default_or_supplied testStack "test" testProps)).
    reflexivity.
  - apply (proj2 (bucket_name_default_or_supplied testStack "test"
                    namedBucketProps) (lit "my-bucket")).
    reflexivity.
Defined.

(** C3.  Whatever the configuration, all four block-public-access
    settings of the bucket are enabled. *)
Theorem bucket_blocks_public_access scope id props :
  exists sw tree bp grants,
    new_StaticWebsite scope id props = Ok (sw, tree) /\
    tree !! bucket sw = Some (Bucket bp grants) /\
    blockPublicAcls (BucketProps.blockPublicAccess bp) = true /\
    blockPublicPolicy (BucketProps.blockPublicAccess bp) = true /\
    ignorePublicAcls (BucketProps.blockPublicAccess bp) = true /\
    restrictPublicBuckets (BucketProps.blockPublicAccess bp) = true.
Proof.
  split_props props; do 4 eexists.
  all: split; [run_constructor|].
  all: cbn [bucket]; simplify_map_eq; done.
Qed.

(** ** The distribution *)

(** C4.  The distribution has exactly one custom error mapping: error
    code 404 is answered with response code 200 and the page ["/"]
    followed by the index document, and the error is cached for at
    least 300 seconds.  The index document is ["index.html"] when the
    configuration has none, and the one of the configuration when it
    has one. *)
Theorem distribution_error_mapping scope id props :
  (StaticWebsiteProps.indexDocument props = None ->
   exists sw tree dp,
     new_StaticWebsite scope id props = Ok (sw, tree) /\
     tree !! distribution sw = Some (CloudFrontWebDistribution dp) /\
     CloudFrontWebDistributionProps.errorConfigurations dp
     = [ {| ErrorConfiguration.errorCode := 404;
            ErrorConfiguration.errorCachingMinTtl := 300;
            ErrorConfiguration.responseCode := 200;
            ErrorConfiguration.responsePagePath :=
              lit "/" ++ lit "index.html" |} ]) /\
  (forall document,
   StaticWebsiteProps.indexDocument props = Some document ->
   exists sw tree dp,
     new_StaticWebsite scope id props = Ok (sw, tree) /\
     tree !! distribution sw = Some (CloudFrontWebDistribution dp) /\
     CloudFrontWebDistributionProps.errorConfigurations dp
     = [ {| ErrorConfiguration.errorCode := 404;
            ErrorConfiguration.errorCachingMinTtl := 300;
            ErrorConfiguration.responseCode := 200;
            ErrorConfiguration.responsePagePath := lit "/" ++ document |} ]).
Proof.
  split; [intros Hdoc | intros document Hdoc].
  all: split_props props; cbn in Hdoc; subst indexDocument.
  all: do 3 eexists; (split; [run_constructor|]).
  all: cbn [distribution]; simplify_map_eq; done.
Qed.

Lemma distribution_error_mapping_witness :
  (exists sw tree dp,
     new_StaticWebsite testStack "test" testProps = Ok (sw, tree) /\
     tree !! distribution sw = Some (CloudFrontWebDistribution dp) /\
     CloudFrontWebDistributionProps.errorConfigurations dp
     = [ {| ErrorConfiguration.errorCode := 404;
            ErrorConfiguration.errorCachingMinTtl := 300;
            ErrorConfiguration.responseCode := 200;
            ErrorConfiguration.responsePagePath := lit "/index.html" |} ]) /\
  (exists sw tree dp,
     new_StaticWebsite testStack "test" customIndexProps = Ok (sw, tree) /\
     tree !! distribution sw = Some (CloudFrontWebDistribution dp) /\
     CloudFrontWebDistributionProps.errorConfigurations dp
     = [ {| ErrorConfiguration.errorCode := 404;
            ErrorConfiguration.errorCachingMinTtl := 300;
            ErrorConfiguration.responseCode := 200;
            ErrorConfiguration.responsePagePath := lit "/app.html" |} ]).
Proof.
  split.
  - apply (proj1 (distribution_error_mapping testStack "test" testProps)).
    reflexivity.
  - apply (proj2 (distribution_error_mapping testStack "test" customIndexProps)
             (lit "app.html")).
    reflexivity.
Defined.

(** ** The DNS record *)

(** C5.  The DNS record is an A record named after the domain name; its
    target is an alias of the distribution of the website, and its TTL
    is one minute. *)
Theorem dns_record_descriptor scope id props :
  exists sw tree rp dp,
    new_StaticWebsite scope id props = Ok (sw, tree) /\
    tree !! dnsRecord sw = Some (ARecord rp) /\
    ARecordProps.recordName rp = StaticWebsiteProps.domainName props /\
    ARecordProps.target rp = fromAlias (CloudFrontTarget (distribution sw)) /\
    tree !! distribution sw = Some (CloudFrontWebDistribution dp) /\
    ARecordProps.ttl rp = Duration_minutes 1 /\
    toSeconds (ARecordProps.ttl rp) = 60.
Proof.
  split_props props; do 4 eexists.
  all: split; [run_constructor|].
  all: cbn [dnsRecord distribution]; simplify_map_eq; done.
Qed.

(** ** The upload of the website files *)

(** A falsy asset path, omitted or empty, leaves the website without a
    deployment. *)
Lemma falsy_path_no_deployment scope id props :
  StaticWebsiteProps.websiteDistPath props = None \/
  StaticWebsiteProps.websiteDistPath props = Some [] ->
  exists sw tree,
    new_StaticWebsite scope id props = Ok (sw, tree) /\
    bucketDeployment sw = None /\
    forall r dp, tree !! r <> Some (BucketDeployment dp).
Proof.
  intros Hpath. split_props props; cbn in Hpath.
  2: { by destruct Hpath. }
  all: do 2 eexists; (split; [run_constructor|]); (split; [done|]).
  all: intros r dp H; each_child H ltac:(discriminate H).
Qed.

(** An empty asset path gives the website of the configuration without
    an asset path. *)
Lemma empty_path_as_omitted scope id props :
  StaticWebsiteProps.websiteDistPath props = Some [] ->
  new_StaticWebsite scope id props
  = new_StaticWebsite scope id (omitWebsiteDistPath props).
Proof.
  intros Hpath. split_props props; cbn in Hpath; try discriminate Hpath.
  reflexivity.
Qed.

(** C6, as amended.  When the asset path is a non-empty string, the
    website has a deployment whose one source is that path, whose
    destination is the bucket of the website, and whose cache control is
    no-cache; when the asset path is omitted, the website has no
    deployment. *)
Theorem bucket_deployment_descriptor scope id props :
  (forall path,
   StaticWebsiteProps.websiteDistPath props = Some path ->
   path <> [] ->
   exists sw tree d dp bp grants,
     new_StaticWebsite scope id props = Ok (sw, tree) /\
     bucketDeployment sw = Some d /\
     tree !! d = Some (BucketDeployment dp) /\
     BucketDeploymentProps.sources dp = [Source_asset path] /\
     BucketDeploymentProps.destinationBucket dp = bucket sw /\
     tree !! bucket sw = Some (Bucket bp grants) /\
     BucketDeploymentProps.cacheControl dp = [CacheControl_noCache]) /\
  (StaticWebsiteProps.websiteDistPath props = None ->
   exists sw tree,
     new_StaticWebsite scope id props = Ok (sw, tree) /\
     bucketDeployment sw = None /\
     forall r dp, tree !! r <> Some (BucketDeployment dp)).
Proof.
  split.
  - intros p Hpath Hp. split_props props; cbn in Hpath; simplify_eq.
    do 6 eexists; (split; [run_constructor|]).
    cbn [bucketDeployment bucket]. split; [reflexivity|].
    simplify_map_eq. done.
  - intros Hpath. apply falsy_path_no_deployment. by left.
Qed.

Lemma bucket_deployment_descriptor_witness :
  (exists sw tree d dp bp grants,
     new_StaticWebsite testStack "test" distProps = Ok (sw, tree) /\
     bucketDeployment sw = Some d /\
     tree !! d = Some (BucketDeployment dp) /\
     BucketDeploymentProps.sources dp = [Source_asset (lit "./dist")] /\
     BucketDeploymentProps.destinationBucket dp = bucket sw /\
     tree !! bucket sw = Some (Bucket bp grants) /\
     BucketDeploymentProps.cacheControl dp = [CacheControl_noCache]) /\
  (exists sw tree,
     new_StaticWebsite testStack "test" testProps = Ok (sw, tree) /\
     bucketDeployment sw = None /\
     forall r dp, tree !! r <> Some (BucketDeployment dp)).
Proof.
  split.
  - apply (proj1 (bucket_deployment_descriptor testStack "test" distProps)
             (lit "./dist")).
    + reflexivity.
    + discriminate.
  - apply (proj2 (bucket_deployment_descriptor testStack "test" testProps)).
    reflexivity.
Defined.

(** C6, as stated, fails: an asset path that is supplied as the empty
    string gives no deployment. *)
Lemma bucket_deployment_empty_path_counterexample :
  StaticWebsiteProps.websiteDistPath emptyPathProps = Some [] /\
  ~ exists sw tree d,
      new_StaticWebsite testStack "test" emptyPathProps = Ok (sw, tree) /\
      bucketDeployment sw = Some d.
Proof.
  split; [reflexivity|].
  intros (sw & tree & d & Hrun & Hd).
  destruct (falsy_path_no_deployment testStack "test" emptyPathProps)
    as (sw' & tree' & Hrun' & Hnone & _); [by right|].
  rewrite Hrun in Hrun'. injection Hrun' as <- <-.
  rewrite Hd in Hnone. discriminate Hnone.
Qed.

(** C10.  An asset path supplied as the empty string gives no
    deployment, and the website is the one of the configuration without
    an asset path. *)
Theorem empty_path_no_deployment scope id props :
  StaticWebsiteProps.websiteDistPath props = Some [] ->
  new_StaticWebsite scope id props
  = new_StaticWebsite scope id (omitWebsiteDistPath props) /\
  exists sw tree,
    new_StaticWebsite scope id props = Ok (sw, tree) /\
    bucketDeployment sw = None /\
    forall r dp, tree !! r <> Some (BucketDeployment dp).
Proof.
  intros Hpath. split.
  - by apply empty_path_as_omitted.
  - apply falsy_path_no_deployment. by right.
Qed.

Lemma empty_path_no_deployment_witness :
  new_StaticWebsite testStack "test" emptyPathProps
  = new_StaticWebsite testStack "test" testProps /\
  exists sw tree,
    new_StaticWebsite testStack "test" emptyPathProps = Ok (sw, tree) /\
    bucketDeployment sw = None /\
    forall r dp, tree !! r <> Some (BucketDeployment dp).
Proof.
  apply (empty_path_no_deployment testStack "test" emptyPathProps).
  reflexivity.
Defined.

(** ** The certificate *)

(** C7.  The certificate that the distribution uses is a DNS-validated
    certificate for the domain name itself; it is validated in the zone
    that the website looks up, and its region is ["us-east-1"] in every
    scope, whatever the region of the stack. *)
Theorem certificate_descriptor scope id props :
  exists sw tree dp c cp q,
    new_StaticWebsite scope id props = Ok (sw, tree) /\
    tree !! distribution sw = Some (CloudFrontWebDistribution dp) /\
    AliasConfiguration.acmCertRef
      (CloudFrontWebDistributionProps.aliasConfiguration dp)
    = Attr c "certificateArn" /\
    tree !! c = Some (DnsValidatedCertificate cp) /\
    DnsValidatedCertificateProps.domainName cp
    = StaticWebsiteProps.domainName props /\
    DnsValidatedCertificateProps.region cp = lit "us-east-1" /\
    tree !! DnsValidatedCertificateProps.hostedZone cp
    = Some (HostedZone_fromLookup q) /\
    HostedZoneProviderProps.domainName q
    = hostedZoneDomainName (StaticWebsiteProps.domainName props).
Proof.
  split_props props; do 6 eexists.
  all: split; [run_constructor|].
  all: cbn [distribution]; split; [by simplify_map_eq|].
  all: split; [reflexivity|].
  all: simplify_map_eq; done.
Qed.

(** ** Removal policies *)



(** * Further properties of the hosted-zone name *)

Section ZoneName.

Lemma throughLastLineTerminator_prefix (l : jsstring) :
  exists t, l = throughLastLineTerminator l ++ t.
Proof.
  induction l as [|c l [t IH]].
  - by exists [].
  - cbn [throughLastLineTerminator].
    destruct (existsb isLineTerminator (c :: l)).
    + exists t. simpl. by rewrite <- IH.
    + by exists (c :: l).
Qed.

Lemma countDots_app (s t : jsstring) :
  countDots (s ++ t) = (countDots s + countDots t)%nat.
Proof.
  induction s as [|c s IH]; simpl; [done|].
  rewrite IH. by destruct (c =? DOT).
Qed.

Lemma countDots_no_dot (s : jsstring) : DOT ∉ s -> countDots s = 0%nat.
Proof.
  induction s as [|c s IH]; intros Hdot; simpl; [done|].
  apply not_elem_of_cons in Hdot as [Hc Hdot].
  destruct (N.eqb_spec c DOT); [done|]. by rewrite IH.
Qed.

(** The zone name of a name with a full stop is shorter than the name. *)
Lemma hostedZoneDomainName_shorter (s : jsstring) :
  DOT ∈ s -> (length (hostedZoneDomainName s) < length s)%nat.
Proof.
  intros Hin. rewrite hostedZoneDomainName_dot by done.
  rewrite (split_at_first_dot s Hin) at 3.
  destruct (throughLastLineTerminator_prefix (leftmostLabel s)) as [t Ht].
  rewrite Ht at 2. rewrite !length_app. simpl. lia.
Qed.

(** The zone name has one full stop less than a name with a full stop. *)
Lemma hostedZoneDomainName_countDots (s : jsstring) :
  DOT ∈ s -> S (countDots (hostedZoneDomainName s)) = countDots s.
Proof.
  intros Hin. rewrite hostedZoneDomainName_dot by done.
  rewrite (split_at_first_dot s Hin) at 3.
  pose proof (leftmostLabel_no_dot s) as Hlabel.
  destruct (throughLastLineTerminator_prefix (leftmostLabel s)) as [t Ht].
  assert (DOT ∉ throughLastLineTerminator (leftmostLabel s)) as Hthrough.
  { intros Hin'. apply Hlabel. rewrite Ht. apply elem_of_app. by left. }
  rewrite !countDots_app. rewrite (countDots_no_dot _ Hthrough).
  rewrite (countDots_no_dot _ Hlabel). simpl. lia.
Qed.

End ZoneName.

(** X9.  For every domain name with a full stop, the hosted-zone lookup
    asks for the name without the stretch that begins after the last
    line terminator of the leftmost label and ends at the first full
    stop. *)
Theorem hosted_zone_cuts_line_of_first_dot scope id props :
  DOT ∈ StaticWebsiteProps.domainName props ->
  exists sw tree rp q,
    new_StaticWebsite scope id props = Ok (sw, tree) /\
    tree !! dnsRecord sw = Some (ARecord rp) /\
    tree !! ARecordProps.zone rp = Some (HostedZone_fromLookup q) /\
    HostedZoneProviderProps.domainName q
    = throughLastLineTerminator
        (leftmostLabel (StaticWebsiteProps.domainName props))
      ++ afterFirstDot (StaticWebsiteProps.domainName props).
Proof.
  intros Hdot.
  destruct (lookup_query scope id props)
    as (sw & tree & rp & q & H1 & H2 & H3 & H4).
  exists sw, tree, rp, q. repeat split; try done.
  rewrite H4. by apply hostedZoneDomainName_dot.
Qed.

Lemma hosted_zone_cuts_line_of_first_dot_witness :
  (DOT ∈ StaticWebsiteProps.domainName twoLineProps) /\
  exists sw tree rp q,
    new_StaticWebsite testStack "test" twoLineProps = Ok (sw, tree) /\
    tree !! dnsRecord sw = Some (ARecord rp) /\
    tree !! ARecordProps.zone rp = Some (HostedZone_fromLookup q) /\
    HostedZoneProviderProps.domainName q = [97; 10; 99].
Proof.
  assert (DOT ∈ StaticWebsiteProps.domainName twoLineProps) as Hdot.
  { simpl. unfold twoLineName. do 3 apply list_elem_of_further.
    apply list_elem_of_here. }
  split; [exact Hdot|].
  exact (hosted_zone_cuts_line_of_first_dot testStack "test" twoLineProps Hdot).
Defined.

(** X10.  The hosted-zone lookup asks for the domain name itself if and
    only if the domain name has no full stop. *)
Theorem hosted_zone_unchanged_iff_no_dot scope id props :
  exists sw tree rp q,
    new_StaticWebsite scope id props = Ok (sw, tree) /\
    tree !! dnsRecord sw = Some (ARecord rp) /\
    tree !! ARecordProps.zone rp = Some (HostedZone_fromLookup q) /\
    (HostedZoneProviderProps.domainName q = StaticWebsiteProps.domainName props
     <-> DOT ∉ StaticWebsiteProps.domainName props).
Proof.
  destruct (lookup_query scope id props)
    as (sw & tree & rp & q & H1 & H2 & H3 & H4).
  exists sw, tree, rp, q. repeat split; try done.
  - intros Heq Hin. rewrite H4 in Heq.
    pose proof (hostedZoneDomainName_shorter _ Hin) as Hlen.
    rewrite Heq in Hlen. lia.
  - intros Hdot. rewrite H4. by apply hostedZoneDomainName_no_dot.
Qed.

(** X11.  For every domain name with a full stop, the name that the
    hosted-zone lookup asks for has exactly one full stop less. *)
Theorem hosted_zone_one_dot_less scope id props :
  DOT ∈ StaticWebsiteProps.domainName props ->
  exists sw tree rp q,
    new_StaticWebsite scope id props = Ok (sw, tree) /\
    tree !! dnsRecord sw = Some (ARecord rp) /\
    tree !! ARecordProps.zone rp = Some (HostedZone_fromLookup q) /\
    S (countDots (HostedZoneProviderProps.domainName q))
    = countDots (StaticWebsiteProps.domainName props).
Proof.
  intros Hdot.
  destruct (lookup_query scope id props)
    as (sw & tree & rp & q & H1 & H2 & H3 & H4).
  exists sw, tree, rp, q. repeat split; try done.
  rewrite H4. by apply hostedZoneDomainName_countDots.
Qed.

Lemma hosted_zone_one_dot_less_witness :
  (DOT ∈ StaticWebsiteProps.domainName testProps) /\
  exists sw tree rp q,
    new_StaticWebsite testStack "test" testProps = Ok (sw, tree) /\
    tree !! dnsRecord sw = Some (ARecord rp) /\
    tree !! ARecordProps.zone rp = Some (HostedZone_fromLookup q) /\
    S (countDots (HostedZoneProviderProps.domainName q)) = 2%nat.
Proof.
  assert (DOT ∈ StaticWebsiteProps.domainName testProps) as Hdot.
  { simpl. do 3 apply list_elem_of_further. apply list_elem_of_here. }
  split; [exact Hdot|].
  exact (hosted_zone_one_dot_less testStack "test" testProps Hdot).
Defined.

(** * Further properties of the construct *)

(** X1.  The distribution has one origin: the bucket of the website,
    read through an access identity that is a child of the website and
    whose comment names that bucket.  The bucket grants read access to
    the principal of that identity and to nobody else. *)
Theorem origin_read_through_access_identity scope id props :
  exists sw tree dp oc oai op bp,
    new_StaticWebsite scope id props = Ok (sw, tree) /\
    tree !! distribution sw = Some (CloudFrontWebDistribution dp) /\
    CloudFrontWebDistributionProps.originConfigs dp = [oc] /\
    S3OriginConfig.s3BucketSource (SourceConfiguration.s3OriginSource oc)
    = bucket sw /\
    S3OriginConfig.originAccessIdentity (SourceConfiguration.s3OriginSource oc)
    = oai /\
    tree !! oai = Some (OriginAccessIdentity op) /\
    OriginAccessIdentityProps.comment op
    = [FText (lit "OAI for "); FToken (Attr (bucket sw) "bucketName")] /\
    tree !! bucket sw = Some (Bucket bp [grantPrincipal oai]).
Proof.
  split_props props; do 7 eexists.
  all: split; [run_constructor|].
  all: cbn [distribution bucket]; split; [by simplify_map_eq|].
  all: do 3 (split; [reflexivity|]).
  all: simplify_map_eq; done.
Qed.

(** X2.  The one origin of the distribution has one cache behaviour: it
    is the default behaviour, and its default TTL is 60 days, which is
    5184000 seconds. *)
Theorem default_behavior_sixty_days scope id props :
  exists sw tree dp oc b,
    new_StaticWebsite scope id props = Ok (sw, tree) /\
    tree !! distribution sw = Some (CloudFrontWebDistribution dp) /\
    CloudFrontWebDistributionProps.originConfigs dp = [oc] /\
    SourceConfiguration.behaviors oc = [b] /\
    Behavior.isDefaultBehavior b = true /\
    Behavior.defaultTtl b = Duration_days 60 /\
    toSeconds (Behavior.defaultTtl b) = 5184000.
Proof.
  split_props props; do 5 eexists.
  all: split; [run_constructor|].
  all: cbn [distribution]; split; [by simplify_map_eq|].
  all: repeat (split; [reflexivity|]); reflexivity.
Qed.

(** X3.  The firewall id of the distribution is the one of the
    configuration, unchanged, and absent when the configuration has
    none. *)
Theorem web_acl_passed_through scope id props :
  exists sw tree dp,
    new_StaticWebsite scope id props = Ok (sw, tree) /\
    tree !! distribution sw = Some (CloudFrontWebDistribution dp) /\
    CloudFrontWebDistributionProps.webACLId dp
    = StaticWebsiteProps.webACLId props.
Proof.
  split_props props; do 3 eexists.
  all: split; [run_constructor|].
  all: cbn [distribution]; simplify_map_eq; done.
Qed.

(** X4.  The distribution, the certificate and the DNS record agree on
    the name: the distribution has the domain name as its only alias,
    the certificate it uses is issued for that name, and the DNS record
    has that name. *)
Theorem one_name_for_alias_certificate_record scope id props :
  exists sw tree dp c cp rp,
    new_StaticWebsite scope id props = Ok (sw, tree) /\
    tree !! distribution sw = Some (CloudFrontWebDistribution dp) /\
    CloudFrontWebDistributionProps.aliasConfiguration dp
    = {| AliasConfiguration.acmCertRef := Attr c "certificateArn";
         AliasConfiguration.names := [StaticWebsiteProps.domainName props] |} /\
    tree !! c = Some (DnsValidatedCertificate cp) /\
    tree !! dnsRecord sw = Some (ARecord rp) /\
    AliasConfiguration.names
      (CloudFrontWebDistributionProps.aliasConfiguration dp)
    = [DnsValidatedCertificateProps.domainName cp] /\
    DnsValidatedCertificateProps.domainName cp = ARecordProps.recordName rp.
Proof.
  split_props props; do 6 eexists.
  all: split; [run_constructor|].
  all: cbn [distribution dnsRecord]; split; [by simplify_map_eq|].
  all: split; [reflexivity|].
  all: simplify_map_eq; done.
Qed.

(** X5.  The index document of the bucket, the default root object of
    the distribution and the page of the error mapping are one
    document: ["index.html"] when the configuration has none, and the
    one of the configuration as it is given, also when it is the empty
    string. *)
Theorem one_index_document scope id props :
  (StaticWebsiteProps.indexDocument props = None ->
   exists sw tree bp grants dp ec,
     new_StaticWebsite scope id props = Ok (sw, tree) /\
     tree !! bucket sw = Some (Bucket bp grants) /\
     tree !! distribution sw = Some (CloudFrontWebDistribution dp) /\
     BucketProps.websiteIndexDocument bp = lit "index.html" /\
     CloudFrontWebDistributionProps.defaultRootObject dp = lit "index.html" /\
     CloudFrontWebDistributionProps.errorConfigurations dp = [ec] /\
     ErrorConfiguration.responsePagePath ec = lit "/" ++ lit "index.html") /\
  (forall document,
   StaticWebsiteProps.indexDocument props = Some document ->
   exists sw tree bp grants dp ec,
     new_StaticWebsite scope id props = Ok (sw, tree) /\
     tree !! bucket sw = Some (Bucket bp grants) /\
     tree !! distribution sw = Some (CloudFrontWebDistribution dp) /\
     BucketProps.websiteIndexDocument bp = document /\
     CloudFrontWebDistributionProps.defaultRootObject dp = document /\
     CloudFrontWebDistributionProps.errorConfigurations dp = [ec] /\
     ErrorConfiguration.responsePagePath ec = lit "/" ++ document).
Proof.
  split; [intros Hdoc | intros document Hdoc].
  all: split_props props; cbn in Hdoc; subst indexDocument.
  all: do 6 eexists; (split; [run_constructor|]).
  all: cbn [bucket distribution]; split; [by simplify_map_eq|].
  all: split; [by simplify_map_eq|].
  all: repeat (split; [reflexivity|]); reflexivity.
Qed.

Lemma one_index_document_witness :
  (exists sw tree bp grants dp ec,
     new_StaticWebsite testStack "test" testProps = Ok (sw, tree) /\
     tree !! bucket sw = Some (Bucket bp grants) /\
     tree !! distribution sw = Some (CloudFrontWebDistribution dp) /\
     BucketProps.websiteIndexDocument bp = lit "index.html" /\
     CloudFrontWebDistributionProps.defaultRootObject dp = lit "index.html" /\
     CloudFrontWebDistributionProps.errorConfigurations dp = [ec] /\
     ErrorConfiguration.responsePagePath ec = lit "/index.html") /\
  (exists sw tree bp grants dp ec,
     new_StaticWebsite testStack "test" customIndexProps = Ok (sw, tree) /\
     tree !! bucket sw = Some (Bucket bp grants) /\
     tree !! distribution sw = Some (CloudFrontWebDistribution dp) /\
     BucketProps.websiteIndexDocument bp = lit "app.html" /\
     CloudFrontWebDistributionProps.defaultRootObject dp = lit "app.html" /\
     CloudFrontWebDistributionProps.errorConfigurations dp = [ec] /\
     ErrorConfiguration.responsePagePath ec = lit "/app.html").
Proof.
  split.
  - apply (proj1 (one_index_document testStack "test" testProps)).
    reflexivity.
  - apply (proj2 (one_index_document testStack "test" customIndexProps)
             (lit "app.html")).
    reflexivity.
Defined.

(** X7.  The certificate is validated in the zone in which the DNS
    record is created: both refer to the one hosted-zone lookup of the
    website. *)
Theorem certificate_and_record_share_zone scope id props :
  exists sw tree rp dp c cp q,
    new_StaticWebsite scope id props = Ok (sw, tree) /\
    tree !! dnsRecord sw = Some (ARecord rp) /\
    tree !! distribution sw = Some (CloudFrontWebDistribution dp) /\
    AliasConfiguration.acmCertRef
      (CloudFrontWebDistributionProps.aliasConfiguration dp)
    = Attr c "certificateArn" /\
    tree !! c = Some (DnsValidatedCertificate cp) /\
    DnsValidatedCertificateProps.hostedZone cp = ARecordProps.zone rp /\
    tree !! ARecordProps.zone rp = Some (HostedZone_fromLookup q).
Proof.
  split_props props; do 7 eexists.
  all: split; [run_constructor|].
  all: cbn [distribution dnsRecord]; split; [by simplify_map_eq|].
  all: split; [by simplify_map_eq|].
  all: split; [reflexivity|].
  all: simplify_map_eq; done.
Qed.

(** X6.  The children that the constructor creates in the scope of the
    website are the bucket, the hosted-zone lookup, the certificate,
    the access identity, the distribution, the DNS record and, when
    there is one, the deployment, and no other; there is a deployment
    exactly when the asset path is a non-empty string. *)
Theorem children_of_the_website scope id props :
  exists sw tree,
    new_StaticWebsite scope id props = Ok (sw, tree) /\
    dom tree
    = {[ bucket sw; "HostedZone"; "SslCertificate"; "Oai";
         distribution sw; dnsRecord sw ]}
      ∪ match bucketDeployment sw with
        | Some deployment => {[ deployment ]}
        | None => ∅
        end /\
    (is_Some (bucketDeployment sw) <->
     exists path,
       StaticWebsiteProps.websiteDistPath props = Some path /\ path <> []).
Proof.
  split_props props; do 2 eexists.
  all: split; [run_constructor|].
  all: cbn [bucket distribution dnsRecord bucketDeployment
            StaticWebsiteProps.websiteDistPath].
  all: split; [rewrite !dom_insert_L, dom_empty_L; set_solver|].
  - split; [by intros [? ?] | by intros (p & [= <-] & Hp)].
  - split; [by eexists | by eexists].
  - split; [by intros [? ?] | by intros (p & ? & _)].
Qed.

(** X8.  The deployment is an addition and nothing else: without it,
    the children of the website are the children of the website of the
    configuration without an asset path, and the other public fields
    are the same. *)
Theorem deployment_changes_nothing_else scope id props :
  exists sw tree sw0 tree0,
    new_StaticWebsite scope id props = Ok (sw, tree) /\
    new_StaticWebsite scope id (omitWebsiteDistPath props) = Ok (sw0, tree0) /\
    bucket sw = bucket sw0 /\
    distribution sw = distribution sw0 /\
    dnsRecord sw = dnsRecord sw0 /\
    bucketDeployment sw0 = None /\
    match bucketDeployment sw with
    | Some deployment => delete deployment tree
    | None => tree
    end = tree0.
Proof.
  split_props props; do 4 eexists.
  all: split; [run_constructor|].
  all: split; [run_constructor|].
  all: do 4 (split; [reflexivity|]).
  all: cbn [bucketDeployment]; reflexivity.
Qed.
